(** * The polls application: models, publication window, listing and lookup

    A shallow embedding of [mysite/polls/models.py] and of the behaviour
    that [mysite/polls/tests.py] exercises.

    - An aware [datetime] is an instant, counted in microseconds (the
      resolution of Python's [datetime]) as a [Z]; a [timedelta] is a
      signed number of microseconds.  The representable range of
      [datetime] (years 1 to 9999) is not modelled: [now] is a reading of
      the wall clock.
    - The clock is part of the world a computation runs in: reading it
      does not change it, and no time passes during a run.
    - A model instance is an object on a heap, so that a method receives a
      reference [self] and reads its attributes from the heap.
    - The database tables are finite maps from primary key to row. *)

From Stdlib Require Import ZArith Lia.
From stdpp Require Import gmap strings list sorting.

Local Open Scope Z_scope.

(** ** datetime *)

Module datetime.

Definition datetime : Type := Z.
Definition timedelta_t : Type := Z.

Definition microseconds_per_second : Z := 1000000.

(** [datetime.timedelta(days=.., hours=.., minutes=.., seconds=..)]:
    every argument is converted to microseconds and added up. *)
Definition timedelta (days hours minutes seconds : Z) : timedelta_t :=
  (((days * 24 + hours) * 60 + minutes) * 60 + seconds)
  * microseconds_per_second.

(** [datetime - timedelta] and [datetime + timedelta]. *)
Definition sub (t : datetime) (d : timedelta_t) : datetime := t - d.
Definition add (t : datetime) (d : timedelta_t) : datetime := t + d.

(** [a <= b] on aware datetimes compares the instants. *)
Definition le (a b : datetime) : bool := a <=? b.

End datetime.

(** ** models.py *)

(** [class Question(models.Model)], lines 7-9. *)
Record Question : Type := mkQuestion {
  question_text : string;
  pub_date : datetime.datetime
}.

(** [class Choice(models.Model)], lines 25-28.  [question] is the
    [question_id] column of the foreign key; [votes] is an
    [IntegerField], a signed integer. *)
Record Choice : Type := mkChoice {
  question : Z;
  choice_text : string;
  votes : Z
}.

#[global] Instance Question_eq_dec : EqDecision Question.
Proof. solve_decision. Defined.

#[global] Instance Choice_eq_dec : EqDecision Choice.
Proof. solve_decision. Defined.

(** The rules a [ForeignKey] can declare for the deletion of the row it
    references (those that apply to a key that is not nullable). *)
Inductive on_delete_rule : Type := CASCADE | PROTECT | DO_NOTHING.

(** The field options that models.py declares: [max_length=200] twice,
    [default=0], [on_delete=models.CASCADE]. *)
Definition Question_question_text_max_length : nat := 200.
Definition Choice_choice_text_max_length : nat := 200.
Definition Choice_votes_default : Z := 0.
Definition Choice_question_on_delete : on_delete_rule := CASCADE.

(** [Question.__str__] and [Choice.__str__]. *)
Definition Question_str (self : Question) : string := question_text self.
Definition Choice_str (self : Choice) : string := choice_text self.

(** [Choice(question=.., choice_text=.., votes=..)]: a keyword that is
    not supplied takes the field's default. *)
Definition Choice_init (question_id : Z) (text : string) (v : option Z) : Choice :=
  {| question := question_id;
     choice_text := text;
     votes := default Choice_votes_default v |}.

(** A Python [str] is held here as the bytes of its UTF-8 encoding.
    [len(s)] counts characters, not bytes: every byte counts but the
    continuation bytes, which are the ones of the form [10xxxxxx]. *)
Definition is_continuation_byte (a : Ascii.ascii) : bool :=
  match a with
  | Ascii.Ascii _ _ _ _ _ _ b6 b7 => b7 && negb b6
  end.

Fixpoint str_len (s : string) : nat :=
  match s with
  | EmptyString => 0
  | String a s' => (if is_continuation_byte a then 0 else 1) + str_len s'
  end.

(** [s * n] *)
Fixpoint str_mul (s : string) (n : nat) : string :=
  match n with
  | O => EmptyString
  | S n' => String.append s (str_mul s n')
  end.

(** ** The state a method call runs in *)

(** Neither model declares a primary key, so each table has the implicit
    auto-incremented [id] that tests.py reads as [future_question.id].
    Beside its rows a table keeps the last [id] it handed out. *)
Record Database : Type := mkDatabase {
  questions : gmap Z Question;
  choices : gmap Z Choice;
  question_id_seq : Z;
  choice_id_seq : Z
}.

Definition empty_database : Database :=
  {| questions := ∅; choices := ∅; question_id_seq := 0; choice_id_seq := 0 |}.

Record World : Type := mkWorld {
  clock : datetime.datetime;          (* what [timezone.now()] reads *)
  heap : gmap positive Question;      (* the live [Question] instances *)
  database : Database
}.

(** Computations that read and may write the world, and may raise. *)
Definition M (A : Type) : Type := World → option (A * World).

#[global] Instance M_ret : MRet M := λ A (a : A) w, Some (a, w).
#[global] Instance M_bind : MBind M := λ A B (k : A → M B) (m : M A) w,
  match m w with
  | Some (a, w') => k a w'
  | None => None
  end.

(** [timezone.now()] *)
Definition timezone_now : M datetime.datetime := λ w, Some (clock w, w).

(** [self.pub_date] *)
Definition get_pub_date (self : positive) : M datetime.datetime :=
  λ w, match heap w !! self with
       | Some q => Some (pub_date q, w)
       | None => None
       end.

(** [Question.was_published_in_day], models.py lines 19-22.  The chained
    comparison [a <= b <= c] is [a <= b and b <= c]. *)
Definition was_published_in_day (self : positive) : M bool :=
  now ← timezone_now;
  let one_day := datetime.timedelta 1 0 0 0 in
  t ← get_pub_date self;
  mret (datetime.le (datetime.sub now one_day) t && datetime.le t now).

(** The value a computation returns, if it returns. *)
Definition result {A} (m : M A) (w : World) : option A := fst <$> m w.

(** A world whose clock reads [now] and in which [self] is the instance [q]. *)
Definition world_at (now : datetime.datetime) (self : positive) (q : Question)
    (d : Database) : World :=
  {| clock := now; heap := {[ self := q ]}; database := d |}.

(** ** tests.py: the model tests *)

(** [Question(pub_date=time)] allocates an instance; a [CharField] that is
    not supplied is the empty string. *)
Definition Question_init (text : string) (t : datetime.datetime) : M positive :=
  λ w, let self := fresh (dom (heap w)) in
       Some (self, {| clock := clock w;
                      heap := <[ self := mkQuestion text t ]> (heap w);
                      database := database w |}).

(** [self.assertIs(a, b)] on booleans. *)
Definition assertIs (a b : bool) : M unit :=
  λ w, if Bool.eqb a b then Some (tt, w) else None.

(** [test_was_published_in_day_with_more_than_day_old_question] *)
Definition test_more_than_day_old_question : M unit :=
  t0 ← timezone_now;
  q1 ← Question_init "" (datetime.sub t0 (datetime.timedelta 1 0 0 1));
  r1 ← was_published_in_day q1;
  _ ← assertIs r1 false;
  t1 ← timezone_now;
  q2 ← Question_init "" (datetime.sub t1 (datetime.timedelta 30 0 0 0));
  r2 ← was_published_in_day q2;
  assertIs r2 false.

(** [test_was_published_in_day_with_less_than_day_old_question] *)
Definition test_less_than_day_old_question : M unit :=
  t0 ← timezone_now;
  q1 ← Question_init "" (datetime.sub t0 (datetime.timedelta 0 23 59 59));
  r1 ← was_published_in_day q1;
  _ ← assertIs r1 true;
  t1 ← timezone_now;
  q2 ← Question_init "" t1;
  r2 ← was_published_in_day q2;
  assertIs r2 true.

(** [test_was_published_in_day_with_future_question] *)
Definition test_future_question : M unit :=
  t0 ← timezone_now;
  q1 ← Question_init "" (datetime.add t0 (datetime.timedelta 1 0 0 1));
  r1 ← was_published_in_day q1;
  _ ← assertIs r1 false;
  t1 ← timezone_now;
  q2 ← Question_init "" (datetime.add t1 (datetime.timedelta 0 0 0 1));
  r2 ← was_published_in_day q2;
  assertIs r2 false.

(** *** The model tests on a running clock

    Between the instant a test reads the clock and the instant the method
    reads it, time passes.  [time_passes e] is the clock moving on by [e];
    the three tests below are the tests above with the time that passes
    before each call of the method, and between the two halves of the
    test, written out. *)
Definition time_passes (e : datetime.timedelta_t) : M unit :=
  λ w, Some (tt, {| clock := datetime.add (clock w) e;
                    heap := heap w;
                    database := database w |}).

Definition test_more_than_day_old_question_on_clock
    (e1 e2 e3 : datetime.timedelta_t) : M unit :=
  t0 ← timezone_now;
  q1 ← Question_init "" (datetime.sub t0 (datetime.timedelta 1 0 0 1));
  _ ← time_passes e1;
  r1 ← was_published_in_day q1;
  _ ← assertIs r1 false;
  _ ← time_passes e2;
  t1 ← timezone_now;
  q2 ← Question_init "" (datetime.sub t1 (datetime.timedelta 30 0 0 0));
  _ ← time_passes e3;
  r2 ← was_published_in_day q2;
  assertIs r2 false.

Definition test_less_than_day_old_question_on_clock
    (e1 e2 e3 : datetime.timedelta_t) : M unit :=
  t0 ← timezone_now;
  q1 ← Question_init "" (datetime.sub t0 (datetime.timedelta 0 23 59 59));
  _ ← time_passes e1;
  r1 ← was_published_in_day q1;
  _ ← assertIs r1 true;
  _ ← time_passes e2;
  t1 ← timezone_now;
  q2 ← Question_init "" t1;
  _ ← time_passes e3;
  r2 ← was_published_in_day q2;
  assertIs r2 true.

Definition test_future_question_on_clock
    (e1 e2 e3 : datetime.timedelta_t) : M unit :=
  t0 ← timezone_now;
  q1 ← Question_init "" (datetime.add t0 (datetime.timedelta 1 0 0 1));
  _ ← time_passes e1;
  r1 ← was_published_in_day q1;
  _ ← assertIs r1 false;
  _ ← time_passes e2;
  t1 ← timezone_now;
  q2 ← Question_init "" (datetime.add t1 (datetime.timedelta 0 0 0 1));
  _ ← time_passes e3;
  r2 ← was_published_in_day q2;
  assertIs r2 false.

(** ** The persistence layer

    The ORM and the database behind it are not among the sources.  The
    tables are the ones models.py declares; [None] is the database
    refusing a statement. *)

(** Modelled from the spec: a Choice is stored only if its [question]
    names a stored Question (section 3: "reference to exactly one owning
    Question", "created referencing an existing Question"). *)
Definition Choice_admissible (d : Database) (c : Choice) : bool :=
  bool_decide (is_Some (questions d !! question c)).

(** Modelled from the spec: create, update and delete on Question and
    Choice (section 6).  A row is stored with the fields it is given.
    How a created row gets its [id] the spec does not say: it is the
    implicit auto-incremented key of the model, the next value of the
    table's sequence, which only moves forward, so that an [id] is not
    handed out a second time, also after its row was deleted. *)
Definition create_question_row (q : Question) (d : Database) : option (Z * Database) :=
  let pk := question_id_seq d + 1 in
  Some (pk, {| questions := <[ pk := q ]> (questions d);
               choices := choices d;
               question_id_seq := pk;
               choice_id_seq := choice_id_seq d |}).

Definition update_question_row (pk : Z) (q : Question) (d : Database) : option Database :=
  match questions d !! pk with
  | Some _ =>
      Some {| questions := <[ pk := q ]> (questions d);
              choices := choices d;
              question_id_seq := question_id_seq d;
              choice_id_seq := choice_id_seq d |}
  | None => None
  end.

Definition create_choice_row (c : Choice) (d : Database) : option (Z * Database) :=
  if Choice_admissible d c then
    let pk := choice_id_seq d + 1 in
    Some (pk, {| questions := questions d;
                 choices := <[ pk := c ]> (choices d);
                 question_id_seq := question_id_seq d;
                 choice_id_seq := pk |})
  else None.

Definition update_choice_row (pk : Z) (c : Choice) (d : Database) : option Database :=
  match choices d !! pk with
  | Some _ =>
      if Choice_admissible d c then
        Some {| questions := questions d;
                choices := <[ pk := c ]> (choices d);
                question_id_seq := question_id_seq d;
                choice_id_seq := choice_id_seq d |}
      else None
  | None => None
  end.

Definition delete_choice_row (pk : Z) (d : Database) : option Database :=
  match choices d !! pk with
  | Some _ =>
      Some {| questions := questions d;
              choices := delete pk (choices d);
              question_id_seq := question_id_seq d;
              choice_id_seq := choice_id_seq d |}
  | None => None
  end.

(** The Choices whose [question] is the Question [pk]. *)
Definition choice_set (pk : Z) (d : Database) : gmap Z Choice :=
  filter (λ row, question row.2 = pk) (choices d).

(** Modelled from the spec: cascade-delete propagation from a Question to
    its Choices (sections 3 and 6), as the rule that the foreign key
    declares.  [CASCADE] deletes the referencing rows with the Question;
    [PROTECT] and [DO_NOTHING] leave them alone, so the statement is
    refused while there are any. *)
Definition delete_question_under (rule : on_delete_rule) (pk : Z) (d : Database)
    : option Database :=
  match questions d !! pk with
  | Some _ =>
      match rule with
      | CASCADE =>
          Some {| questions := delete pk (questions d);
                  choices := filter (λ row, question row.2 ≠ pk) (choices d);
                  question_id_seq := question_id_seq d;
                  choice_id_seq := choice_id_seq d |}
      | PROTECT | DO_NOTHING =>
          if decide (choice_set pk d = ∅) then
            Some {| questions := delete pk (questions d);
                    choices := choices d;
                    question_id_seq := question_id_seq d;
                    choice_id_seq := choice_id_seq d |}
          else None
      end
  | None => None
  end.

Definition delete_question_row : Z → Database → option Database :=
  delete_question_under Choice_question_on_delete.

(** The statements a client can issue, and a run of them. *)
Inductive statement : Type :=
  | CreateQuestion (q : Question)
  | UpdateQuestion (pk : Z) (q : Question)
  | DeleteQuestion (pk : Z)
  | CreateChoice (c : Choice)
  | UpdateChoice (pk : Z) (c : Choice)
  | DeleteChoice (pk : Z).

Definition execute (s : statement) (d : Database) : option Database :=
  match s with
  | CreateQuestion q => snd <$> create_question_row q d
  | UpdateQuestion pk q => update_question_row pk q d
  | DeleteQuestion pk => delete_question_row pk d
  | CreateChoice c => snd <$> create_choice_row c d
  | UpdateChoice pk c => update_choice_row pk c d
  | DeleteChoice pk => delete_choice_row pk d
  end.

(** A refused statement leaves the database as it was. *)
Definition step (s : statement) (d : Database) : Database :=
  default d (execute s d).

Definition run (ss : list statement) (d : Database) : Database :=
  foldl (λ d s, step s d) d ss.

Definition reachable (d : Database) : Prop :=
  ∃ ss, d = run ss empty_database.

(** Every Choice's foreign key names a stored Question. *)
Definition referential_integrity (d : Database) : Prop :=
  ∀ pk c, choices d !! pk = Some c → is_Some (questions d !! question c).

(** Every stored text is within the [max_length] its field declares. *)
Definition text_bounded (d : Database) : Prop :=
  (∀ pk q, questions d !! pk = Some q →
           (str_len (question_text q) ≤ Question_question_text_max_length)%nat)
  ∧ (∀ pk c, choices d !! pk = Some c →
             (str_len (choice_text c) ≤ Choice_choice_text_max_length)%nat).

(** The text a statement supplies, if it supplies one, is within the
    [max_length] of its field: what the field's validation checks. *)
Definition within_max_length (s : statement) : Prop :=
  match s with
  | CreateQuestion q | UpdateQuestion _ q =>
      (str_len (question_text q) ≤ Question_question_text_max_length)%nat
  | CreateChoice c | UpdateChoice _ c =>
      (str_len (choice_text c) ≤ Choice_choice_text_max_length)%nat
  | DeleteQuestion _ | DeleteChoice _ => True
  end.

(** No stored row has an [id] beyond the last one its table handed out. *)
Definition ids_handed_out (d : Database) : Prop :=
  (∀ pk, is_Some (questions d !! pk) → 0 < pk ≤ question_id_seq d)
  ∧ (∀ pk, is_Some (choices d !! pk) → 0 < pk ≤ choice_id_seq d)
  ∧ 0 ≤ question_id_seq d
  ∧ 0 ≤ choice_id_seq d.

(** ** The views

    polls/views.py is not among the sources.  A listed Question is a row:
    its primary key and its fields. *)

(** Modelled from the spec: the order of the listing, "ordered by
    publication_time descending, most recent first" (section 4.2). *)
Definition newest_first (r1 r2 : Z * Question) : Prop :=
  pub_date r2.2 ≤ pub_date r1.2.

#[global] Instance newest_first_dec : RelDecision newest_first.
Proof. intros r1 r2. unfold newest_first. apply _. Defined.

(** Modelled from the spec: the filter of the listing, "publication_time
    is at or before now" (section 4.2). *)
Definition published (now : datetime.datetime) (r : Z * Question) : Prop :=
  pub_date r.2 ≤ now.

#[global] Instance published_dec now r : Decision (published now r).
Proof. unfold published. apply _. Defined.

(** Modelled from the spec: "list all Questions whose publication_time is
    at or before now, ordered by publication_time descending" (section
    4.2).  The spec leaves the order of ties open; here it is the one the
    sort gives. *)
Definition listing (now : datetime.datetime) (d : Database) : list (Z * Question) :=
  merge_sort newest_first (filter (published now) (map_to_list (questions d))).

(** Modelled from the spec: the two outcomes of the detail lookup, the
    Question or the not-found condition (sections 4.3 and 7). *)
Inductive lookup_result : Type :=
  | Found (q : Question)
  | NotFound.

#[global] Instance lookup_result_eq_dec : EqDecision lookup_result.
Proof. solve_decision. Defined.

(** Modelled from the spec: "return the Question if it exists and its
    publication_time is at or before now; otherwise signal a not-found
    condition" (section 4.3). *)
Definition detail (now : datetime.datetime) (d : Database) (pk : Z) : lookup_result :=
  match questions d !! pk with
  | Some q => if decide (pub_date q ≤ now) then Found q else NotFound
  | None => NotFound
  end.

(** [create_question], tests.py lines 8-15: the row is published [days]
    days from the clock's reading. *)
Definition create_question (text : string) (days : Z) : M (Z * Question) :=
  λ w, let time := datetime.add (clock w) (datetime.timedelta days 0 0 0) in
       let q := mkQuestion text time in
       match create_question_row q (database w) with
       | Some (pk, d') =>
           Some ((pk, q), {| clock := clock w; heap := heap w; database := d' |})
       | None => None
       end.

(** Modelled from the spec: the index and detail views read the clock and
    the database, and write nothing. *)
Definition index_view : M (list (Z * Question)) :=
  λ w, Some (listing (clock w) (database w), w).

Definition detail_view (pk : Z) : M lookup_result :=
  λ w, Some (detail (clock w) (database w) pk, w).

(** ** Sample data *)

(** A world with an empty database, as a test finds it, at a sample
    reading of the clock. *)
Definition sample_world : World :=
  {| clock := 1762214400000000; heap := ∅; database := empty_database |}.

(** A Question published 400 seconds before that reading. *)
Definition recent_question : Question :=
  mkQuestion "What's up?" 1762214000000000.

(** A small database: one Question with two Choices, and a second
    Question with one. *)
Definition polls_database : Database :=
  run [ CreateQuestion (mkQuestion "Tea or coffee?" 0);
        CreateQuestion (mkQuestion "Cats or dogs?" 10);
        CreateChoice (Choice_init 1 "Tea" None);
        CreateChoice (Choice_init 1 "Coffee" None);
        CreateChoice (Choice_init 2 "Cats" None) ] empty_database.

(** A text of 201 characters, and a Question and a Choice built with
    it. *)
Definition long_text : string := str_mul "x" 201.

Definition long_question : Question := mkQuestion long_text 0.

Definition long_choice : Choice := Choice_init 1 long_text None.

(** A Choice built with a negative count. *)
Definition spoiled_choice : Choice := Choice_init 1 "Tea" (Some (-1)).

(** Three instances, all read at one instant. *)
Definition three_questions : World :=
  {| clock := 100;
     heap := {[ 1%positive := mkQuestion "first" 10;
                2%positive := mkQuestion "second" 50;
                3%positive := mkQuestion "third" 90 ]};
     database := empty_database |}.

(** * Properties *)

(** ** The publication window *)

Lemma timedelta_one_day :
  datetime.timedelta 1 0 0 0 = datetime.timedelta 0 24 0 0.
Proof. reflexivity. Qed.

(** One call of the method, unfolded: it reads the clock and the
    attribute, and hands the world back as it found it. *)
Lemma was_published_in_day_run (w : World) (self : positive) (q : Question) :
  heap w !! self = Some q →
  was_published_in_day self w =
    Some ((clock w - datetime.timedelta 1 0 0 0 <=? pub_date q)
            && (pub_date q <=? clock w), w).
Proof.
  intros Hq. unfold was_published_in_day, mbind, M_bind, timezone_now,
    get_pub_date, mret, M_ret, datetime.le, datetime.sub.
  by rewrite Hq.
Qed.

Lemma in_window_reflect (now t : Z) :
  (now - datetime.timedelta 1 0 0 0 <=? t) && (t <=? now) =
    bool_decide (now - datetime.timedelta 0 24 0 0 ≤ t ≤ now).
Proof.
  rewrite timedelta_one_day. case_bool_decide as Hd.
  - destruct Hd. apply andb_true_iff. split; by apply Z.leb_le.
  - apply andb_false_iff.
    destruct (Z.leb_spec (now - datetime.timedelta 0 24 0 0) t); [right | by left].
    apply Z.leb_gt. lia.
Qed.

Lemma was_published_in_day_result (w : World) (self : positive) (q : Question) :
  heap w !! self = Some q →
  result (was_published_in_day self) w =
    Some (bool_decide (clock w - datetime.timedelta 0 24 0 0 ≤ pub_date q ≤ clock w)).
Proof.
  intros Hq. unfold result. rewrite (was_published_in_day_run _ _ _ Hq).
  simpl. f_equal. apply in_window_reflect.
Qed.

Lemma world_at_heap (now : Z) (self : positive) (q : Question) (d : Database) :
  heap (world_at now self q d) !! self = Some q.
Proof. apply lookup_singleton_eq. Qed.

(** C1: with [now] the clock's reading and [t] the Question's [pub_date],
    [was_published_in_day] returns [True] exactly when
    [now - 24h <= t <= now], and [False] otherwise; [t = now] gives
    [True], and every [t] after [now] gives [False]. *)
Theorem was_published_in_day_iff_in_window
    (w : World) (self : positive) (q : Question) :
  heap w !! self = Some q →
  (result (was_published_in_day self) w = Some true
     ↔ clock w - datetime.timedelta 0 24 0 0 ≤ pub_date q ≤ clock w)
  ∧ (result (was_published_in_day self) w = Some false
     ↔ ¬ (clock w - datetime.timedelta 0 24 0 0 ≤ pub_date q ≤ clock w))
  ∧ (pub_date q = clock w → result (was_published_in_day self) w = Some true)
  ∧ (clock w < pub_date q → result (was_published_in_day self) w = Some false).
Proof.
  intros Hq. rewrite (was_published_in_day_result _ _ _ Hq).
  assert (0 ≤ datetime.timedelta 0 24 0 0) as Hday by (by vm_compute).
  split; [split | split; [split | split]].
  - intros [= Hb]. by apply bool_decide_eq_true in Hb.
  - intros Hin. f_equal. by apply bool_decide_eq_true.
  - intros [= Hb]. by apply bool_decide_eq_false in Hb.
  - intros Hout. f_equal. by apply bool_decide_eq_false.
  - intros Heq. f_equal. apply bool_decide_eq_true. lia.
  - intros Hlt. f_equal. apply bool_decide_eq_false. lia.
Qed.

Lemma was_published_in_day_iff_in_window_witness :
  result (was_published_in_day 1)
    (world_at 1762214400000000 1 (mkQuestion "What's new?" 1762214400000000)
       empty_database) = Some true.
Proof.
  destruct (was_published_in_day_iff_in_window
              (world_at 1762214400000000 1
                 (mkQuestion "What's new?" 1762214400000000) empty_database)
              1 (mkQuestion "What's new?" 1762214400000000) eq_refl)
    as (_ & _ & Hnow & _).
  apply Hnow. reflexivity.
Defined.

(** C4: the lower end of the window is inclusive.  A [pub_date] exactly
    24 hours before [now] gives [True]; one second earlier gives [False]. *)
Theorem was_published_in_day_lower_boundary
    (w : World) (self : positive) (q : Question) :
  heap w !! self = Some q →
  (pub_date q = datetime.sub (clock w) (datetime.timedelta 0 24 0 0) →
     result (was_published_in_day self) w = Some true)
  ∧ (pub_date q = datetime.sub (clock w) (datetime.timedelta 0 24 0 1) →
     result (was_published_in_day self) w = Some false).
Proof.
  intros Hq. rewrite (was_published_in_day_result _ _ _ Hq).
  unfold datetime.sub.
  assert (datetime.timedelta 0 24 0 1 = datetime.timedelta 0 24 0 0 + 1000000)
    as Hsec by reflexivity.
  assert (0 ≤ datetime.timedelta 0 24 0 0) as Hday by (by vm_compute).
  split; intros Ht; f_equal.
  - apply bool_decide_eq_true. lia.
  - apply bool_decide_eq_false. lia.
Qed.

Lemma was_published_in_day_lower_boundary_witness :
  result (was_published_in_day 1)
    (world_at 86400000000 1 (mkQuestion "" 0) empty_database) = Some true
  ∧ result (was_published_in_day 1)
      (world_at 86401000000 1 (mkQuestion "" 0) empty_database) = Some false.
Proof.
  split.
  - apply (was_published_in_day_lower_boundary
             (world_at 86400000000 1 (mkQuestion "" 0) empty_database)
             1 (mkQuestion "" 0) eq_refl).
    reflexivity.
  - apply (was_published_in_day_lower_boundary
             (world_at 86401000000 1 (mkQuestion "" 0) empty_database)
             1 (mkQuestion "" 0) eq_refl).
    reflexivity.
Defined.

(** C8: [was_published_in_day] has no side effect.  It returns, the world
    after the call is the world before it (so the instance's
    [question_text] and [pub_date], every other instance, the clock and
    the database are as they were), and the value returned is one function
    of the two timestamps [now] and [pub_date] alone. *)
Theorem was_published_in_day_pure :
  ∃ f : datetime.datetime → datetime.datetime → bool,
    ∀ (w : World) (self : positive) (q : Question),
      heap w !! self = Some q →
      ∃ w', was_published_in_day self w = Some (f (clock w) (pub_date q), w')
            ∧ w' = w
            ∧ heap w' !! self = Some q
            ∧ heap w' = heap w
            ∧ database w' = database w
            ∧ clock w' = clock w.
Proof.
  exists (λ now t, (now - datetime.timedelta 1 0 0 0 <=? t) && (t <=? now)).
  intros w self q Hq. exists w.
  split; [by apply was_published_in_day_run | done].
Qed.

(** C9: the window moves with the clock.  Shifting both [now] and
    [pub_date] by the same duration [d] does not change the answer; the
    answer is determined by the difference [now - pub_date]. *)
Theorem was_published_in_day_translation
    (w1 w2 : World) (self1 self2 : positive) (q1 q2 : Question) :
  heap w1 !! self1 = Some q1 →
  heap w2 !! self2 = Some q2 →
  (∀ d : datetime.timedelta_t,
     clock w2 = datetime.add (clock w1) d →
     pub_date q2 = datetime.add (pub_date q1) d →
     result (was_published_in_day self2) w2 =
       result (was_published_in_day self1) w1)
  ∧ (clock w2 - pub_date q2 = clock w1 - pub_date q1 →
     result (was_published_in_day self2) w2 =
       result (was_published_in_day self1) w1).
Proof.
  intros Hq1 Hq2.
  rewrite (was_published_in_day_result _ _ _ Hq1),
    (was_published_in_day_result _ _ _ Hq2).
  assert (clock w2 - pub_date q2 = clock w1 - pub_date q1 →
          Some (bool_decide (clock w2 - datetime.timedelta 0 24 0 0
                               ≤ pub_date q2 ≤ clock w2)) =
          Some (bool_decide (clock w1 - datetime.timedelta 0 24 0 0
                               ≤ pub_date q1 ≤ clock w1))) as Hdiff.
  { intros Heq. f_equal. apply bool_decide_ext. lia. }
  split; [| exact Hdiff].
  intros d Hnow Ht. apply Hdiff. unfold datetime.add in *. lia.
Qed.

Lemma was_published_in_day_translation_witness :
  result (was_published_in_day 2)
    (world_at 3600000005 2 (mkQuestion "shifted" 3600000000) empty_database) =
  result (was_published_in_day 1)
    (world_at 5 1 (mkQuestion "original" 0) empty_database).
Proof.
  apply (was_published_in_day_translation
           (world_at 5 1 (mkQuestion "original" 0) empty_database)
           (world_at 3600000005 2 (mkQuestion "shifted" 3600000000) empty_database)
           1 2 (mkQuestion "original" 0) (mkQuestion "shifted" 3600000000)
           eq_refl eq_refl).
  reflexivity.
Defined.

(** *** The model tests of tests.py pass

    The clock of a world does not advance during a run, so the instant the
    test reads and the instant the method reads are the same. *)

Lemma timezone_now_run {A} (k : datetime.datetime → M A) (w : World) :
  (now ← timezone_now; k now) w = k (clock w) w.
Proof. reflexivity. Qed.

Lemma assertIs_run {A} (b : bool) (k : unit → M A) (w : World) :
  (u ← assertIs b b; k u) w = k tt w.
Proof. unfold mbind, M_bind, assertIs. by rewrite Bool.eqb_reflx. Qed.

Lemma assertIs_same (b : bool) (w : World) : assertIs b b w = Some (tt, w).
Proof. unfold assertIs. by rewrite Bool.eqb_reflx. Qed.

(** Allocating an instance and asking it: the continuation gets the
    window test at the clock's reading. *)
Lemma Question_init_then_ask {A} (text : string) (t : Z) (k : bool → M A)
    (w : World) :
  (q ← Question_init text t; r ← was_published_in_day q; k r) w =
    k (bool_decide (clock w - datetime.timedelta 0 24 0 0 ≤ t ≤ clock w))
      {| clock := clock w;
         heap := <[ fresh (dom (heap w)) := mkQuestion text t ]> (heap w);
         database := database w |}.
Proof.
  unfold mbind at 1 2. unfold M_bind, Question_init.
  rewrite (was_published_in_day_run _ _ (mkQuestion text t))
    by apply lookup_insert_eq.
  by rewrite in_window_reflect.
Qed.

Lemma test_more_than_day_old_question_passes (w : World) :
  is_Some (test_more_than_day_old_question w).
Proof.
  unfold test_more_than_day_old_question, datetime.sub.
  rewrite timezone_now_run, Question_init_then_ask.
  rewrite bool_decide_eq_false_2
    by (assert (datetime.timedelta 1 0 0 1 = datetime.timedelta 0 24 0 0 + 1000000)
          as -> by reflexivity; lia).
  rewrite assertIs_run, timezone_now_run, Question_init_then_ask.
  rewrite bool_decide_eq_false_2; [rewrite assertIs_same; eauto |].
  assert (datetime.timedelta 30 0 0 0 = datetime.timedelta 0 24 0 0 * 30)
    as -> by reflexivity.
  assert (0 < datetime.timedelta 0 24 0 0) by (by vm_compute). lia.
Qed.

Lemma test_less_than_day_old_question_passes (w : World) :
  is_Some (test_less_than_day_old_question w).
Proof.
  unfold test_less_than_day_old_question, datetime.sub.
  rewrite timezone_now_run, Question_init_then_ask.
  rewrite bool_decide_eq_true_2
    by (assert (datetime.timedelta 0 24 0 0 = datetime.timedelta 0 23 59 59 + 1000000)
          as -> by reflexivity;
        assert (0 < datetime.timedelta 0 23 59 59) by (by vm_compute); lia).
  rewrite assertIs_run, timezone_now_run, Question_init_then_ask.
  rewrite bool_decide_eq_true_2; [rewrite assertIs_same; eauto |].
  assert (0 < datetime.timedelta 0 24 0 0) by (by vm_compute). lia.
Qed.

Lemma test_future_question_passes (w : World) :
  is_Some (test_future_question w).
Proof.
  unfold test_future_question, datetime.add.
  rewrite timezone_now_run, Question_init_then_ask.
  rewrite bool_decide_eq_false_2
    by (assert (0 < datetime.timedelta 1 0 0 1) by (by vm_compute); lia).
  rewrite assertIs_run, timezone_now_run, Question_init_then_ask.
  rewrite bool_decide_eq_false_2; [rewrite assertIs_same; eauto |].
  assert (0 < datetime.timedelta 0 0 0 1) by (by vm_compute). lia.
Qed.

(** ** The listing *)

#[global] Instance newest_first_trans : Transitive newest_first.
Proof. intros r1 r2 r3. unfold newest_first. lia. Qed.

#[global] Instance newest_first_total : Total newest_first.
Proof. intros r1 r2. unfold newest_first. lia. Qed.

Lemma listing_Permutation (now : Z) (d : Database) :
  listing now d ≡ₚ filter (published now) (map_to_list (questions d)).
Proof. apply merge_sort_Permutation. Qed.

Lemma elem_of_listing (now : Z) (d : Database) (pk : Z) (q : Question) :
  (pk, q) ∈ listing now d ↔ questions d !! pk = Some q ∧ pub_date q ≤ now.
Proof.
  rewrite listing_Permutation, list_elem_of_filter, elem_of_map_to_list.
  unfold published. simpl. tauto.
Qed.

Lemma listing_NoDup (now : Z) (d : Database) : NoDup (listing now d).
Proof.
  rewrite listing_Permutation. apply NoDup_filter, NoDup_map_to_list.
Qed.

Lemma listing_sorted (now : Z) (d : Database) :
  StronglySorted newest_first (listing now d).
Proof. apply StronglySorted_merge_sort; apply _. Qed.

(** In a strongly sorted list, an earlier position is related to every
    later one. *)
Lemma StronglySorted_positions {A} (R : relation A) (l : list A) :
  StronglySorted R l →
  ∀ (i j : nat) (x y : A), (i < j)%nat → l !! i = Some x → l !! j = Some y → R x y.
Proof.
  induction 1 as [| a l Hsorted IH Hall]; intros i j x y Hij Hi Hj.
  - by rewrite lookup_nil in Hi.
  - destruct j as [| j]; [lia |]. simpl in Hj.
    destruct i as [| i]; simpl in Hi.
    + injection Hi as <-. rewrite Forall_lookup in Hall. by eapply Hall.
    + eapply IH; [| done | done]. lia.
Qed.

(** C2: the listing holds exactly the stored Questions whose [pub_date]
    is at or before [now], each once, the most recent first; a Question
    with a future [pub_date] is never in it, and the listing of a
    database without Questions is empty. *)
Theorem listing_exact_and_sorted (now : datetime.datetime) (d : Database) :
  (∀ pk q, (pk, q) ∈ listing now d ↔ questions d !! pk = Some q ∧ pub_date q ≤ now)
  ∧ NoDup (listing now d)
  ∧ (∀ (i j : nat) r1 r2,
       (i < j)%nat → listing now d !! i = Some r1 → listing now d !! j = Some r2 →
       pub_date r2.2 ≤ pub_date r1.2)
  ∧ (∀ pk q, now < pub_date q → (pk, q) ∉ listing now d)
  ∧ (questions d = ∅ → listing now d = []).
Proof.
  split; [apply elem_of_listing |].
  split; [apply listing_NoDup |].
  split.
  { intros i j r1 r2 Hij H1 H2.
    by apply (StronglySorted_positions newest_first _ (listing_sorted now d)
                i j r1 r2). }
  split.
  - intros pk q Hfuture [_ Hle]%elem_of_listing. lia.
  - intros Hempty. unfold listing. rewrite Hempty, map_to_list_empty.
    reflexivity.
Qed.

(** The index tests of tests.py and of section 8 of the spec, at a sample
    reading of the clock and on a database that is empty before the test.
    Each computes the list the view returns. *)
Lemma test_no_questions : result index_view sample_world = Some [].
Proof. reflexivity. Qed.

Lemma test_past_question :
  result (question ← create_question "Past question." (-30);
          l ← index_view;
          mret (bool_decide (l = [question]))) sample_world = Some true.
Proof. by vm_compute. Qed.

Lemma test_future_question_not_listed :
  result (_ ← create_question "Future question." 30; index_view) sample_world
  = Some [].
Proof. by vm_compute. Qed.

Lemma test_future_question_and_past_question :
  result (question ← create_question "Past question." (-30);
          _ ← create_question "Future question." 30;
          l ← index_view;
          mret (bool_decide (l = [question]))) sample_world = Some true.
Proof. by vm_compute. Qed.

Lemma test_two_past_questions :
  result (question1 ← create_question "Past question 1." (-30);
          question2 ← create_question "Past question 2." (-5);
          l ← index_view;
          mret (bool_decide (l = [question2; question1]))) sample_world = Some true.
Proof. by vm_compute. Qed.

(** ** The detail lookup *)

(** C3: the lookup finds the Question [q] exactly when a Question is
    stored under the identifier and its [pub_date] is at or before [now];
    in every other case, a stored Question with a future [pub_date]
    included, the answer is not-found, and there is no third answer. *)
Theorem detail_found_iff (now : datetime.datetime) (d : Database) (pk : Z) :
  (∀ q, detail now d pk = Found q ↔ questions d !! pk = Some q ∧ pub_date q ≤ now)
  ∧ (detail now d pk = NotFound
       ↔ ¬ ∃ q, questions d !! pk = Some q ∧ pub_date q ≤ now)
  ∧ (∀ q, questions d !! pk = Some q → now < pub_date q →
          detail now d pk = NotFound)
  ∧ ((∃ q, detail now d pk = Found q) ∨ detail now d pk = NotFound).
Proof.
  unfold detail.
  destruct (questions d !! pk) as [q0 |] eqn:Hlookup.
  - destruct (decide (pub_date q0 ≤ now)) as [Hle | Hgt].
    + split; [| split; [| split]].
      * intros q. split; [by intros [= <-] | by intros [[= <-] _]].
      * split; [done | intros Hnone; destruct Hnone; eauto].
      * intros q [= <-] Hfuture. lia.
      * left. eauto.
    + split; [| split; [| split]].
      * intros q. split; [done | intros [[= <-] Hle]; lia].
      * split; [intros _ (q & [= <-] & Hle); lia | done].
      * done.
      * by right.
  - split; [| split; [| split]].
    + intros q. split; [done | by intros [? _]].
    + split; [by intros _ (q & ? & _) | done].
    + done.
    + by right.
Qed.

(** The detail tests of tests.py, at the sample reading of the clock. *)
Lemma test_detail_future_question :
  result (future_question ← create_question "Future question." 5;
          detail_view future_question.1) sample_world = Some NotFound.
Proof. by vm_compute. Qed.

Lemma test_detail_past_question :
  result (past_question ← create_question "Past Question." (-5);
          r ← detail_view past_question.1;
          mret (bool_decide (r = Found past_question.2))) sample_world = Some true.
Proof. by vm_compute. Qed.

(** C10: a Question that [was_published_in_day] holds for at [now] has
    its [pub_date] at or before [now]; so it passes the listing's filter,
    and wherever it is stored it is in the listing and the detail lookup
    finds it. *)
Theorem was_published_in_day_implies_published
    (w : World) (self : positive) (q : Question) :
  heap w !! self = Some q →
  result (was_published_in_day self) w = Some true →
  pub_date q ≤ clock w
  ∧ (∀ pk, published (clock w) (pk, q))
  ∧ (∀ d pk, questions d !! pk = Some q →
             (pk, q) ∈ listing (clock w) d ∧ detail (clock w) d pk = Found q).
Proof.
  intros Hq. rewrite (was_published_in_day_result _ _ _ Hq).
  intros [= [_ Hle]%bool_decide_eq_true].
  split; [done |]. split; [by intros pk |].
  intros d pk Hstored. split.
  - by apply elem_of_listing.
  - unfold detail. rewrite Hstored. by rewrite decide_True.
Qed.

Lemma was_published_in_day_implies_published_witness :
  detail 1762214400000000
    {| questions := {[ 7 := recent_question ]}; choices := ∅;
       question_id_seq := 7; choice_id_seq := 0 |} 7
  = Found recent_question.
Proof.
  destruct (was_published_in_day_implies_published
              (world_at 1762214400000000 1 recent_question empty_database)
              1 recent_question eq_refl eq_refl) as (_ & _ & Hstored).
  apply (Hstored {| questions := {[ 7 := recent_question ]}; choices := ∅;
       question_id_seq := 7; choice_id_seq := 0 |} 7).
  reflexivity.
Defined.

(** ** The database: what every reachable state satisfies *)

Lemma run_snoc (ss : list statement) (s : statement) (d : Database) :
  run (ss ++ [s]) d = step s (run ss d).
Proof. unfold run. by rewrite foldl_app. Qed.

(** A property of the empty database that every accepted statement
    preserves holds of every reachable database. *)
Lemma reachable_invariant (P : Database → Prop) :
  P empty_database →
  (∀ s d d', P d → execute s d = Some d' → P d') →
  ∀ d, reachable d → P d.
Proof.
  intros Hempty Hstep d [ss ->].
  induction ss as [| s ss IH] using rev_ind; [done |].
  rewrite run_snoc. unfold step.
  destruct (execute s (run ss empty_database)) as [d' |] eqn:Hexec; simpl.
  - by eapply Hstep.
  - done.
Qed.

Lemma reachable_step (s : statement) (d : Database) :
  reachable d → reachable (step s d).
Proof. intros [ss ->]. exists (ss ++ [s]). by rewrite run_snoc. Qed.

Lemma Choice_admissible_spec (d : Database) (c : Choice) :
  Choice_admissible d c = true ↔ is_Some (questions d !! question c).
Proof. unfold Choice_admissible. by rewrite bool_decide_eq_true. Qed.

(** The cascade, on any database. *)
Lemma delete_question_row_cascades (pk : Z) (d : Database) :
  is_Some (questions d !! pk) →
  delete_question_row pk d =
    Some {| questions := delete pk (questions d);
            choices := filter (λ row, question row.2 ≠ pk) (choices d);
            question_id_seq := question_id_seq d;
            choice_id_seq := choice_id_seq d |}.
Proof.
  intros [q Hq]. unfold delete_question_row, delete_question_under.
  by rewrite Hq.
Qed.

Lemma delete_question_row_None (pk : Z) (d : Database) :
  questions d !! pk = None → delete_question_row pk d = None.
Proof.
  intros Hq. unfold delete_question_row, delete_question_under. by rewrite Hq.
Qed.

Lemma execute_referential_integrity (s : statement) (d d' : Database) :
  referential_integrity d → execute s d = Some d' → referential_integrity d'.
Proof.
  intros Hd. unfold referential_integrity in *.
  destruct s as [q | pk q | pk | c | pk c | pk]; simpl.
  - unfold create_question_row.
    intros [= <-] cpk c Hc. simpl in *.
    rewrite lookup_insert_is_Some. destruct (Hd _ _ Hc) as [q' Hq'].
    destruct (decide (question_id_seq d + 1 = question c)); eauto.
  - unfold update_question_row. destruct (questions d !! pk); [| done].
    intros [= <-] cpk c Hc. simpl in *.
    rewrite lookup_insert_is_Some.
    destruct (decide (pk = question c)); eauto.
  - destruct (questions d !! pk) as [q |] eqn:Hq.
    + rewrite delete_question_row_cascades by eauto.
      intros [= <-] cpk c [Hc Hne]%map_lookup_filter_Some. simpl in *.
      rewrite lookup_delete_ne by done. eauto.
    + by rewrite delete_question_row_None.
  - unfold create_choice_row.
    destruct (Choice_admissible d c) eqn:Hadm; [| done].
    apply Choice_admissible_spec in Hadm as Hfk.
    intros [= <-] cpk c' Hc'. simpl in *.
    apply lookup_insert_Some in Hc' as [[_ <-] | [_ Hc']]; eauto.
  - unfold update_choice_row. destruct (choices d !! pk); [| done].
    destruct (Choice_admissible d c) eqn:Hadm; [| done].
    apply Choice_admissible_spec in Hadm as Hfk.
    intros [= <-] cpk c' Hc'. simpl in *.
    apply lookup_insert_Some in Hc' as [[_ <-] | [_ Hc']]; eauto.
  - unfold delete_choice_row. destruct (choices d !! pk); [| done].
    intros [= <-] cpk c' Hc'. simpl in *.
    apply lookup_delete_Some in Hc' as [_ Hc']. eauto.
Qed.

(** A statement whose text is within the declared length keeps the stored
    texts within it. *)
Lemma execute_text_bounded (s : statement) (d d' : Database) :
  within_max_length s →
  text_bounded d → execute s d = Some d' → text_bounded d'.
Proof.
  intros Hs [Hqs Hcs]. unfold text_bounded.
  destruct s as [q | pk q | pk | c | pk c | pk]; simpl in *.
  - unfold create_question_row.
    intros [= <-]. simpl. split; [| done].
    intros pk' q' [[_ <-] | [_ Hq']]%lookup_insert_Some; eauto.
  - unfold update_question_row. destruct (questions d !! pk); [| done].
    intros [= <-]. simpl. split; [| done].
    intros pk' q' [[_ <-] | [_ Hq']]%lookup_insert_Some; eauto.
  - destruct (questions d !! pk) as [q |] eqn:Hq.
    + rewrite delete_question_row_cascades by eauto.
      intros [= <-]. simpl. split.
      * intros pk' q' [_ Hq']%lookup_delete_Some. eauto.
      * intros pk' c' [Hc' _]%map_lookup_filter_Some. eauto.
    + by rewrite delete_question_row_None.
  - unfold create_choice_row.
    destruct (Choice_admissible d c); [| done].
    intros [= <-]. simpl. split; [done |].
    intros pk' c' [[_ <-] | [_ Hc']]%lookup_insert_Some; eauto.
  - unfold update_choice_row. destruct (choices d !! pk); [| done].
    destruct (Choice_admissible d c); [| done].
    intros [= <-]. simpl. split; [done |].
    intros pk' c' [[_ <-] | [_ Hc']]%lookup_insert_Some; eauto.
  - unfold delete_choice_row. destruct (choices d !! pk); [| done].
    intros [= <-]. simpl. split; [done |].
    intros pk' c' [_ Hc']%lookup_delete_Some. eauto.
Qed.

(** Every stored [id] is one its table has handed out; so the [id] of the
    next created row is not in use. *)
Lemma execute_ids_handed_out (s : statement) (d d' : Database) :
  ids_handed_out d → execute s d = Some d' → ids_handed_out d'.
Proof.
  intros (Hqs & Hcs & Hq0 & Hc0). unfold ids_handed_out.
  destruct s as [q | pk q | pk | c | pk c | pk]; simpl.
  - unfold create_question_row. intros [= <-]. simpl.
    split; [| split; [done | split; [lia | done]]].
    intros pk' [<- | [_ Hpk']]%lookup_insert_is_Some; [lia |].
    specialize (Hqs _ Hpk'). lia.
  - unfold update_question_row.
    destruct (questions d !! pk) as [q0 |] eqn:Hq; [| done].
    intros [= <-]. simpl. split; [| done].
    intros pk' [<- | [_ Hpk']]%lookup_insert_is_Some; eauto.
  - destruct (questions d !! pk) as [q |] eqn:Hq.
    + rewrite delete_question_row_cascades by eauto.
      intros [= <-]. simpl. split; [| split; [| done]].
      * intros pk' [q' [_ Hq']%lookup_delete_Some]. eauto.
      * intros pk' [c' [Hc' _]%map_lookup_filter_Some]. eauto.
    + by rewrite delete_question_row_None.
  - unfold create_choice_row. destruct (Choice_admissible d c); [| done].
    intros [= <-]. simpl.
    split; [done | split; [| split; [done | lia]]].
    intros pk' [<- | [_ Hpk']]%lookup_insert_is_Some; [lia |].
    specialize (Hcs _ Hpk'). lia.
  - unfold update_choice_row.
    destruct (choices d !! pk) as [c0 |] eqn:Hc; [| done].
    destruct (Choice_admissible d c); [| done].
    intros [= <-]. simpl. split; [done | split; [| done]].
    intros pk' [<- | [_ Hpk']]%lookup_insert_is_Some; eauto.
  - unfold delete_choice_row. destruct (choices d !! pk); [| done].
    intros [= <-]. simpl. split; [done | split; [| done]].
    intros pk' [c' [_ Hc']%lookup_delete_Some]. eauto.
Qed.

Lemma reachable_ids_handed_out (d : Database) :
  reachable d → ids_handed_out d.
Proof.
  revert d. apply reachable_invariant.
  - unfold ids_handed_out. simpl.
    split; [| split; [| done]]; intros pk [x Hx]; by rewrite lookup_empty in Hx.
  - apply execute_ids_handed_out.
Qed.

(** In a reachable database the [id] of a created Question was not in
    use, and creating it disturbs no other row. *)
Lemma create_question_row_keeps (q : Question) (d d' : Database) (pk : Z) :
  reachable d →
  create_question_row q d = Some (pk, d') →
  questions d !! pk = None
  ∧ questions d' !! pk = Some q
  ∧ (∀ pk', pk' ≠ pk → questions d' !! pk' = questions d !! pk')
  ∧ choices d' = choices d.
Proof.
  intros (Hqs & _)%reachable_ids_handed_out.
  unfold create_question_row. intros [= <- <-]. simpl.
  split; [| split; [apply lookup_insert_eq | split; [| done]]].
  - destruct (questions d !! (question_id_seq d + 1)) as [q0 |] eqn:Hq0; [| done].
    assert (0 < question_id_seq d + 1 ≤ question_id_seq d) by eauto. lia.
  - intros pk' Hne. by rewrite lookup_insert_ne.
Qed.

(** An [id] is not handed out again after its row was deleted. *)
Lemma deleted_id_is_not_reused :
  fst <$> create_question_row (mkQuestion "third" 0)
            (run [ CreateQuestion (mkQuestion "first" 0);
                   CreateQuestion (mkQuestion "second" 0);
                   DeleteQuestion 2 ] empty_database)
  = Some 3.
Proof. reflexivity. Qed.

Lemma polls_database_reachable : reachable polls_database.
Proof. eexists. reflexivity. Defined.

(** C5: deleting a stored Question succeeds and takes with it exactly the
    Choices that reference it, so no Choice referencing it remains, and
    the other rows stay; in every reachable database each Choice (whose
    [question] is a single, non-null key) references a stored Question,
    also after the deletion. *)
Theorem delete_question_cascades (d : Database) :
  reachable d →
  (∀ cpk c, choices d !! cpk = Some c → is_Some (questions d !! question c))
  ∧ (∀ pk, is_Some (questions d !! pk) →
       ∃ d', delete_question_row pk d = Some d'
             ∧ questions d' !! pk = None
             ∧ (∀ cpk c, choices d' !! cpk = Some c → question c ≠ pk)
             ∧ (∀ cpk c, choices d' !! cpk = Some c
                         ↔ choices d !! cpk = Some c ∧ question c ≠ pk)
             ∧ (∀ pk', pk' ≠ pk → questions d' !! pk' = questions d !! pk')
             ∧ (∀ cpk c, choices d' !! cpk = Some c →
                         is_Some (questions d' !! question c))).
Proof.
  intros Hreach.
  assert (referential_integrity d) as Hd.
  { revert d Hreach. apply reachable_invariant.
    - intros pk c Hc. simpl in Hc. by rewrite lookup_empty in Hc.
    - intros s d d'. apply execute_referential_integrity. }
  split; [exact Hd |].
  intros pk Hpk. eexists. split; [by apply delete_question_row_cascades |].
  simpl. split; [apply lookup_delete_eq |].
  split; [by intros cpk c [_ Hne]%map_lookup_filter_Some |].
  split; [intros cpk c; by rewrite map_lookup_filter_Some |].
  split; [intros pk' Hne; by rewrite lookup_delete_ne |].
  intros cpk c [Hc Hne]%map_lookup_filter_Some. simpl in Hne.
  rewrite lookup_delete_ne by done. by eapply Hd.
Qed.

Lemma delete_question_cascades_witness :
  ∃ d', delete_question_row 1 polls_database = Some d'
        ∧ questions d' !! 1 = None
        ∧ (∀ cpk c, choices d' !! cpk = Some c → question c ≠ 1)
        ∧ (∀ cpk c, choices d' !! cpk = Some c
                    ↔ choices polls_database !! cpk = Some c ∧ question c ≠ 1)
        ∧ (∀ pk', pk' ≠ 1 → questions d' !! pk' = questions polls_database !! pk')
        ∧ (∀ cpk c, choices d' !! cpk = Some c →
                    is_Some (questions d' !! question c)).
Proof.
  destruct (delete_question_cascades polls_database polls_database_reachable)
    as [_ Hdelete].
  apply (Hdelete 1). exists (mkQuestion "Tea or coffee?" 0). reflexivity.
Defined.

(** What the cascade does on the small database: the two Choices of the
    first Question go, the Choice of the second stays. *)
Lemma delete_question_row_example :
  (λ d, (map_to_list (questions d), map_to_list (choices d)))
    <$> delete_question_row 1 polls_database
  = Some ([(2, mkQuestion "Cats or dogs?" 10)],
          [(3, Choice_init 2 "Cats" None)]).
Proof. by vm_compute. Qed.

(** Under the other rules the same deletion is refused: the result above
    rests on the rule that models.py declares. *)
Lemma delete_question_under_other_rules :
  Choice_question_on_delete = CASCADE
  ∧ delete_question_under PROTECT 1 polls_database = None
  ∧ delete_question_under DO_NOTHING 1 polls_database = None.
Proof. by vm_compute. Qed.

(** ** The text columns *)

(** [len] counts characters, not bytes. *)
Lemma str_len_counts_characters :
  str_len "polls" = 5%nat
  ∧ str_len "é" = 1%nat ∧ String.length "é" = 2%nat
  ∧ str_len (str_mul "é" 150) = 150%nat
  ∧ str_len long_text = 201%nat.
Proof. by vm_compute. Qed.

Lemma run_within_max_length (ss : list statement) (d : Database) :
  Forall within_max_length ss → text_bounded d → text_bounded (run ss d).
Proof.
  induction ss as [| s ss IH] using rev_ind; [done |].
  intros [Hss Hs]%Forall_app Hd. apply Forall_inv in Hs.
  rewrite run_snoc. unfold step.
  destruct (execute s (run ss d)) as [d' |] eqn:Hexec; simpl.
  - eapply execute_text_bounded; [exact Hs | by apply IH | exact Hexec].
  - by apply IH.
Qed.

(** C7, as stated, fails: a Question and a Choice are built with a text of
    201 characters, and both are stored as they are. *)
Lemma text_can_exceed_max_length :
  str_len (question_text long_question) = 201%nat
  ∧ ¬ (str_len (question_text long_question) ≤ 200)%nat
  ∧ str_len (choice_text long_choice) = 201%nat
  ∧ ¬ (str_len (choice_text long_choice) ≤ 200)%nat
  ∧ reachable (run [CreateQuestion long_question; CreateChoice long_choice]
                 empty_database)
  ∧ questions (run [CreateQuestion long_question; CreateChoice long_choice]
                 empty_database) !! 1 = Some long_question
  ∧ choices (run [CreateQuestion long_question; CreateChoice long_choice]
               empty_database) !! 1 = Some long_choice.
Proof.
  assert (str_len long_text = 201%nat) as Hlen by (by vm_compute).
  split; [exact Hlen |].
  split; [change (¬ (str_len long_text ≤ 200)%nat); rewrite Hlen; lia |].
  split; [exact Hlen |].
  split; [change (¬ (str_len long_text ≤ 200)%nat); rewrite Hlen; lia |].
  split; [by eexists |].
  split; reflexivity.
Qed.

(** C7, amended: the store keeps a text as it is supplied.  So when every
    statement that created or updated a row supplied a text of at most
    200 characters, the [question_text] of every stored Question and the
    [choice_text] of every stored Choice is at most 200 characters long. *)
Theorem stored_text_within_max_length (ss : list statement) :
  Forall within_max_length ss →
  (∀ pk q, questions (run ss empty_database) !! pk = Some q →
           (str_len (question_text q) ≤ 200)%nat)
  ∧ (∀ pk c, choices (run ss empty_database) !! pk = Some c →
             (str_len (choice_text c) ≤ 200)%nat).
Proof.
  intros Hss. apply (run_within_max_length ss empty_database Hss).
  split; intros pk x Hx; simpl in Hx; by rewrite lookup_empty in Hx.
Qed.

Lemma stored_text_within_max_length_witness :
  (∀ pk q, questions polls_database !! pk = Some q →
           (str_len (question_text q) ≤ 200)%nat)
  ∧ (∀ pk c, choices polls_database !! pk = Some c →
             (str_len (choice_text c) ≤ 200)%nat).
Proof.
  apply (stored_text_within_max_length
           [ CreateQuestion (mkQuestion "Tea or coffee?" 0);
             CreateQuestion (mkQuestion "Cats or dogs?" 10);
             CreateChoice (Choice_init 1 "Tea" None);
             CreateChoice (Choice_init 1 "Coffee" None);
             CreateChoice (Choice_init 2 "Cats" None) ]).
  repeat constructor; simpl; unfold Question_question_text_max_length,
    Choice_choice_text_max_length; lia.
Defined.

(** ** The vote counter *)

(** C6, as stated, fails: [votes] is an [IntegerField], and a Choice with
    a negative count is built and stored like any other. *)
Lemma votes_can_be_negative :
  votes spoiled_choice = -1
  ∧ ¬ (0 ≤ votes spoiled_choice)
  ∧ reachable (step (CreateChoice spoiled_choice) polls_database)
  ∧ choices (step (CreateChoice spoiled_choice) polls_database) !! 4
    = Some spoiled_choice.
Proof.
  split; [reflexivity |]. split; [by vm_compute |].
  split; [apply reachable_step, polls_database_reachable | by vm_compute].
Qed.

(** C6, amended: a Choice built without a value for [votes] has
    [votes = 0], which is not negative; one built with a value has that
    value, whatever its sign. *)
Theorem Choice_init_votes (question_id : Z) (text : string) :
  votes (Choice_init question_id text None) = 0
  ∧ 0 ≤ votes (Choice_init question_id text None)
  ∧ ∀ v : Z, votes (Choice_init question_id text (Some v)) = v.
Proof. by split; [| split]. Qed.

(** * Further properties of the code *)

(** ** The window as the clock and the publication date move *)

(** X1: Among instances compared at one reading of the clock, the ones the
    method holds for are those of an interval of publication dates: if it
    holds for an earlier and for a later [pub_date], it holds for every
    [pub_date] between them.  In a table ordered by [pub_date], as the
    column's [ordering="pub_date"] asks, they are therefore one run of
    consecutive rows. *)
Theorem was_published_in_day_convex
    (w : World) (self1 self2 self3 : positive) (q1 q2 q3 : Question) :
  heap w !! self1 = Some q1 →
  heap w !! self2 = Some q2 →
  heap w !! self3 = Some q3 →
  pub_date q1 ≤ pub_date q2 ≤ pub_date q3 →
  result (was_published_in_day self1) w = Some true →
  result (was_published_in_day self3) w = Some true →
  result (was_published_in_day self2) w = Some true.
Proof.
  intros H1 H2 H3 Horder.
  rewrite (was_published_in_day_result _ _ _ H1),
    (was_published_in_day_result _ _ _ H2),
    (was_published_in_day_result _ _ _ H3).
  intros [= Hin1%bool_decide_eq_true] [= Hin3%bool_decide_eq_true].
  f_equal. apply bool_decide_eq_true. lia.
Qed.

Lemma was_published_in_day_convex_witness :
  result (was_published_in_day 2) three_questions = Some true.
Proof.
  apply (was_published_in_day_convex three_questions 1 2 3
           (mkQuestion "first" 10) (mkQuestion "second" 50)
           (mkQuestion "third" 90) eq_refl eq_refl eq_refl).
  - simpl. lia.
  - reflexivity.
  - reflexivity.
Defined.

(** X2: A Question that is published and for which the method already
    answers [False] is answered [False] at every later reading of the
    clock: once out of the window, it does not come back. *)
Theorem was_published_in_day_expires
    (w1 w2 : World) (self1 self2 : positive) (q : Question) :
  heap w1 !! self1 = Some q →
  heap w2 !! self2 = Some q →
  clock w1 ≤ clock w2 →
  pub_date q ≤ clock w1 →
  result (was_published_in_day self1) w1 = Some false →
  result (was_published_in_day self2) w2 = Some false.
Proof.
  intros H1 H2 Hlater Hpublished.
  rewrite (was_published_in_day_result _ _ _ H1),
    (was_published_in_day_result _ _ _ H2).
  intros [= Hout%bool_decide_eq_false].
  f_equal. apply bool_decide_eq_false. lia.
Qed.

Lemma was_published_in_day_expires_witness :
  result (was_published_in_day 1)
    (world_at 200000000000 1 (mkQuestion "old" 0) empty_database) = Some false.
Proof.
  apply (was_published_in_day_expires
           (world_at 100000000000 1 (mkQuestion "old" 0) empty_database)
           (world_at 200000000000 1 (mkQuestion "old" 0) empty_database)
           1 1 (mkQuestion "old" 0) eq_refl eq_refl).
  - simpl. lia.
  - simpl. lia.
  - reflexivity.
Defined.

(** ** The model tests of tests.py on a running clock *)

Lemma time_passes_run {A} (e : Z) (k : unit → M A) (w : World) :
  (u ← time_passes e; k u) w =
    k tt {| clock := clock w + e; heap := heap w; database := database w |}.
Proof. reflexivity. Qed.

(** Allocating an instance, letting [e] pass and asking the instance. *)
Lemma Question_init_wait_ask {A} (text : string) (t e : Z) (k : bool → M A)
    (w : World) :
  (q ← Question_init text t; _ ← time_passes e;
   r ← was_published_in_day q; k r) w =
    k (bool_decide (clock w + e - datetime.timedelta 0 24 0 0 ≤ t ≤ clock w + e))
      {| clock := clock w + e;
         heap := <[ fresh (dom (heap w)) := mkQuestion text t ]> (heap w);
         database := database w |}.
Proof.
  unfold mbind at 1 2 3. unfold M_bind, Question_init, time_passes, datetime.add.
  rewrite (was_published_in_day_run _ _ (mkQuestion text t))
    by apply lookup_insert_eq.
  by rewrite in_window_reflect.
Qed.

Lemma assertIs_is_Some (a b : bool) (w : World) :
  is_Some (assertIs a b w) ↔ a = b.
Proof.
  unfold assertIs. destruct a, b; simpl; split; intros H;
    first [done | by destruct H | eauto].
Qed.

Lemma assertIs_then_is_Some {A} (a b : bool) (k : unit → M A) (w : World) :
  is_Some ((u ← assertIs a b; k u) w) ↔ a = b ∧ is_Some (k tt w).
Proof.
  unfold mbind, M_bind, assertIs.
  destruct a, b; simpl; split; intros H;
    first [by destruct H as [? ?] | done | by split].
Qed.

Ltac run_test_on_clock :=
  rewrite timezone_now_run, Question_init_wait_ask, assertIs_then_is_Some,
    time_passes_run, timezone_now_run, Question_init_wait_ask, assertIs_is_Some;
  simpl clock;
  rewrite ?bool_decide_eq_true, ?bool_decide_eq_false;
  unfold datetime.sub, datetime.add, datetime.timedelta,
    datetime.microseconds_per_second in *.

(** X3: [test_was_published_in_day_with_more_than_day_old_question] passes
    however much time passes between its statements, as long as the clock
    does not run backwards. *)
Theorem test_more_than_day_old_question_always_passes
    (e1 e2 e3 : datetime.timedelta_t) (w : World) :
  0 ≤ e1 → 0 ≤ e3 →
  is_Some (test_more_than_day_old_question_on_clock e1 e2 e3 w).
Proof.
  intros He1 He3. unfold test_more_than_day_old_question_on_clock.
  run_test_on_clock. lia.
Qed.

Lemma test_more_than_day_old_question_always_passes_witness :
  is_Some (test_more_than_day_old_question_on_clock 2500000 40 7000000000000
             sample_world).
Proof.
  apply (test_more_than_day_old_question_always_passes
           2500000 40 7000000000000 sample_world); lia.
Defined.

(** X4: [test_was_published_in_day_with_less_than_day_old_question] passes
    exactly when at most one second passes between its first reading of
    the clock and the method's, and at most one day between its second
    reading and the method's. *)
Theorem test_less_than_day_old_question_passes_iff
    (e1 e2 e3 : datetime.timedelta_t) (w : World) :
  0 ≤ e1 → 0 ≤ e3 →
  is_Some (test_less_than_day_old_question_on_clock e1 e2 e3 w)
  ↔ e1 ≤ datetime.timedelta 0 0 0 1 ∧ e3 ≤ datetime.timedelta 1 0 0 0.
Proof.
  intros He1 He3. unfold test_less_than_day_old_question_on_clock.
  run_test_on_clock. lia.
Qed.

Lemma test_less_than_day_old_question_passes_iff_witness :
  is_Some (test_less_than_day_old_question_on_clock 1000000 0 86400000000
             sample_world).
Proof.
  apply (test_less_than_day_old_question_passes_iff
           1000000 0 86400000000 sample_world); [lia | lia |].
  by vm_compute.
Defined.

(** One microsecond more before the first call, and the test fails. *)
Lemma test_less_than_day_old_question_can_fail :
  test_less_than_day_old_question_on_clock 1000001 0 0 sample_world = None.
Proof. by vm_compute. Qed.

(** X5: [test_was_published_in_day_with_future_question] passes exactly when
    neither instance has come into its window by the time the method reads
    the clock: the first assertion fails from a day and a second up to two
    days and a second after the test's first reading, the second from one
    second up to a day and a second after its second reading. *)
Theorem test_future_question_passes_iff
    (e1 e2 e3 : datetime.timedelta_t) (w : World) :
  is_Some (test_future_question_on_clock e1 e2 e3 w)
  ↔ (e1 < datetime.timedelta 1 0 0 1 ∨ datetime.timedelta 2 0 0 1 < e1)
    ∧ (e3 < datetime.timedelta 0 0 0 1 ∨ datetime.timedelta 1 0 0 1 < e3).
Proof.
  unfold test_future_question_on_clock.
  run_test_on_clock. lia.
Qed.

(** ** [create_question] *)

(** The Question that [create_question] builds, and what the call leaves
    alone. *)
Lemma create_question_returns
    (text : string) (days : Z) (w w' : World) (pk : Z) (q : Question) :
  create_question text days w = Some ((pk, q), w') →
  q = mkQuestion text (clock w + days * datetime.timedelta 1 0 0 0)
  ∧ clock w' = clock w
  ∧ heap w' = heap w.
Proof.
  unfold create_question.
  destruct (create_question_row _ (database w)) as [[pk' d'] |]; [| done].
  intros [= <- <- <-]. simpl. split; [| done].
  f_equal. unfold datetime.add, datetime.timedelta,
    datetime.microseconds_per_second. lia.
Qed.

(** X6: What [create_question] returns, as its docstring says: the Question
    has the given text and is published [days] days from now, in the past
    for a negative offset, in the future for a positive one; neither the
    clock nor any instance is touched. *)
Theorem create_question_offset
    (text : string) (days : Z) (w w' : World) (pk : Z) (q : Question) :
  create_question text days w = Some ((pk, q), w') →
  question_text q = text
  ∧ pub_date q = clock w + days * datetime.timedelta 1 0 0 0
  ∧ (days < 0 → pub_date q < clock w)
  ∧ (days = 0 → pub_date q = clock w)
  ∧ (0 < days → clock w < pub_date q)
  ∧ clock w' = clock w
  ∧ heap w' = heap w.
Proof.
  intros (-> & Hclock & Hheap)%create_question_returns. simpl.
  assert (0 < datetime.timedelta 1 0 0 0) as Hday by (by vm_compute).
  repeat split; try done; intros; nia.
Qed.

Lemma create_question_offset_witness :
  pub_date (mkQuestion "Past question." 1759622400000000)
  < clock sample_world.
Proof.
  destruct (create_question_offset "Past question." (-30) sample_world
              {| clock := 1762214400000000; heap := ∅;
                 database :=
                   {| questions := {[ 1 := mkQuestion "Past question." 1759622400000000 ]};
                      choices := ∅;
                      question_id_seq := 1; choice_id_seq := 0 |} |}
              1 (mkQuestion "Past question." 1759622400000000) eq_refl)
    as (_ & _ & Hpast & _).
  apply Hpast. lia.
Defined.

(** X8: Asked at the instant of its creation, a Question made by
    [create_question] is published within the day exactly when its
    offset is 0 or -1 days. *)
Theorem create_question_was_published_in_day
    (text : string) (days : Z) (w w' : World) (pk : Z) (q : Question)
    (v : World) (self : positive) :
  create_question text days w = Some ((pk, q), w') →
  heap v !! self = Some q →
  clock v = clock w →
  result (was_published_in_day self) v = Some (bool_decide (-1 ≤ days ≤ 0)).
Proof.
  intros (-> & _)%create_question_returns Hself Hclock.
  rewrite (was_published_in_day_result _ _ _ Hself), Hclock. simpl.
  f_equal. apply bool_decide_ext.
  assert (datetime.timedelta 0 24 0 0 = datetime.timedelta 1 0 0 0)
    as -> by reflexivity.
  assert (0 < datetime.timedelta 1 0 0 0) as Hday by (by vm_compute).
  nia.
Qed.

Lemma create_question_was_published_in_day_witness :
  result (was_published_in_day 1)
    (world_at 1762214400000000 1
       (mkQuestion "Yesterday's question." 1762128000000000) empty_database)
  = Some true.
Proof.
  apply (create_question_was_published_in_day "Yesterday's question." (-1)
           sample_world
           {| clock := 1762214400000000; heap := ∅;
              database :=
                {| questions :=
                     {[ 1 := mkQuestion "Yesterday's question." 1762128000000000 ]};
                   choices := ∅;
                   question_id_seq := 1; choice_id_seq := 0 |} |}
           1 (mkQuestion "Yesterday's question." 1762128000000000)
           (world_at 1762214400000000 1
              (mkQuestion "Yesterday's question." 1762128000000000) empty_database)
           1 eq_refl eq_refl eq_refl).
Defined.
